(** * Verification of [solar_system.py]: the body catalogue of the solar
    system model, the parent map derived from it, and the orbital-state core
    (Kepler propagation and the fallback resolver) that consumes it.

    Numbers of the catalogue are written as exact rationals ([Q]) of their
    decimal literals: every claim on them is an order comparison with 0 or 1,
    which rounding to binary64 preserves.  The propagation core is stated over
    the real numbers. *)

From Stdlib Require Import ZArith QArith Reals Lra Ascii String List Bool Lia.
Import ListNotations.

Module Catalog.

Open Scope Z_scope.
Open Scope string_scope.

(** A [canonical_orbit] bundle: the six Keplerian elements in the units of
    the source (km and degrees). *)
Module Orbit.
Record t := mk {
  a : Q;
  e : Q;
  i : Q;
  Omega : Q;
  omega : Q;
  M0 : Q
}.
End Orbit.

(** One dictionary of [SOLAR_SYSTEM_BODIES].  Keys that some records lack
    ([streamed], [GM], [r_eq], [j2], [canonical_orbit]) are options ([None]:
    key absent); [parent] is present in every record and is [None] when its
    value is Python's [None].  The orientation keys ([orientation_quat],
    [pole_ra], [pole_dec], [pm]) are opaque data that no definition below
    reads and are not modelled. *)
Record body := {
  id : Z;
  name : string;
  parent : option Z;
  streamed : option bool;
  GM : option Q;
  r_eq : option Q;
  j2 : option Q;
  canonical_orbit : option Orbit.t
}.

Definition SOLAR_SYSTEM_BODIES : list body := [
  {| id := 0; name := "Solar System Barycenter"; parent := None; streamed := Some false;
     GM := None; r_eq := None; j2 := None;
     canonical_orbit := None |};
  {| id := 10; name := "Sun"; parent := Some 0; streamed := Some true;
     GM := None; r_eq := None; j2 := None;
     canonical_orbit := None |};
  {| id := 1; name := "Mercury Barycenter"; parent := Some 0; streamed := Some true;
     GM := None; r_eq := None; j2 := None;
     canonical_orbit := Some (Orbit.mk (579090500 # 10) (2056 # 10000) (7005 # 1000) (48331 # 1000) (29124 # 1000) (174796 # 1000)) |};
  {| id := 2; name := "Venus Barycenter"; parent := Some 0; streamed := Some true;
     GM := None; r_eq := None; j2 := None;
     canonical_orbit := Some (Orbit.mk (1082080000 # 10) (67 # 10000) (33947 # 10000) (76680 # 1000) (54884 # 1000) (50416 # 1000)) |};
  {| id := 3; name := "Earth Barycenter"; parent := Some 0; streamed := Some true;
     GM := None; r_eq := None; j2 := None;
     canonical_orbit := Some (Orbit.mk (1495980230 # 10) (167 # 10000) (0 # 1000) (-1126064 # 100000) (11420783 # 100000) (358617 # 1000)) |};
  {| id := 4; name := "Mars Barycenter"; parent := Some 0; streamed := Some true;
     GM := None; r_eq := None; j2 := None;
     canonical_orbit := Some (Orbit.mk (2279392000 # 10) (935 # 10000) (1850 # 1000) (49558 # 1000) (286502 # 1000) (19373 # 1000)) |};
  {| id := 5; name := "Jupiter Barycenter"; parent := Some 0; streamed := Some true;
     GM := None; r_eq := None; j2 := None;
     canonical_orbit := Some (Orbit.mk (7785700000 # 10) (489 # 10000) (1303 # 1000) (100464 # 1000) (273867 # 1000) (20020 # 1000)) |};
  {| id := 6; name := "Saturn Barycenter"; parent := Some 0; streamed := Some true;
     GM := None; r_eq := None; j2 := None;
     canonical_orbit := Some (Orbit.mk (14335300000 # 10) (565 # 10000) (2485 # 1000) (113665 # 1000) (339392 # 1000) (317020 # 1000)) |};
  {| id := 7; name := "Uranus Barycenter"; parent := Some 0; streamed := Some true;
     GM := None; r_eq := None; j2 := None;
     canonical_orbit := Some (Orbit.mk (28750400000 # 10) (463 # 10000) (773 # 1000) (74006 # 1000) (96998 # 1000) (1422386 # 10000)) |};
  {| id := 8; name := "Neptune Barycenter"; parent := Some 0; streamed := Some true;
     GM := None; r_eq := None; j2 := None;
     canonical_orbit := Some (Orbit.mk (45044500000 # 10) (97 # 10000) (1770 # 1000) (131784 # 1000) (273187 # 1000) (256228 # 1000)) |};
  {| id := 9; name := "Pluto System Barycenter"; parent := Some 0; streamed := Some true;
     GM := None; r_eq := None; j2 := None;
     canonical_orbit := Some (Orbit.mk (59064406280 # 10) (2488 # 10000) (1716 # 100) (110299 # 1000) (113834 # 1000) (1453 # 100)) |};
  {| id := 199; name := "Mercury"; parent := Some 1; streamed := Some true;
     GM := Some (2203186855 # 100000); r_eq := Some (24397 # 10); j2 := Some (60 # 1000000);
     canonical_orbit := Some (Orbit.mk (579090500 # 10) (2056 # 10000) (7005 # 1000) (48331 # 1000) (29124 # 1000) (174796 # 1000)) |};
  {| id := 299; name := "Venus"; parent := Some 2; streamed := Some true;
     GM := Some (324858592 # 1000); r_eq := Some (60518 # 10); j2 := Some (4458 # 1000000000);
     canonical_orbit := Some (Orbit.mk (1082080000 # 10) (67 # 10000) (33947 # 10000) (76680 # 1000) (54884 # 1000) (50416 # 1000)) |};
  {| id := 399; name := "Earth"; parent := Some 3; streamed := Some true;
     GM := Some (398600435507 # 1000000); r_eq := Some (63781366 # 10000); j2 := Some (108262668 # 100000000000);
     canonical_orbit := Some (Orbit.mk (1495980230 # 10) (167 # 10000) (0 # 1000) (-1126064 # 100000) (11420783 # 100000) (358617 # 1000)) |};
  {| id := 499; name := "Mars"; parent := Some 4; streamed := Some true;
     GM := Some (42828375214 # 1000000); r_eq := Some (339619 # 100); j2 := Some (196045 # 100000000);
     canonical_orbit := Some (Orbit.mk (2279392000 # 10) (935 # 10000) (1850 # 1000) (49558 # 1000) (286502 # 1000) (19373 # 1000)) |};
  {| id := 599; name := "Jupiter"; parent := Some 5; streamed := Some true;
     GM := Some (1266865319 # 10); r_eq := Some (71492 # 1); j2 := Some (14696 # 1000000);
     canonical_orbit := Some (Orbit.mk (7785700000 # 10) (489 # 10000) (1303 # 1000) (100464 # 1000) (273867 # 1000) (20020 # 1000)) |};
  {| id := 699; name := "Saturn"; parent := Some 6; streamed := Some true;
     GM := Some (379312078 # 10); r_eq := Some (60268 # 1); j2 := Some (16298 # 1000000);
     canonical_orbit := Some (Orbit.mk (14335300000 # 10) (565 # 10000) (2485 # 1000) (113665 # 1000) (339392 # 1000) (317020 # 1000)) |};
  {| id := 799; name := "Uranus"; parent := Some 7; streamed := Some true;
     GM := Some (57939513 # 10); r_eq := Some (255590 # 10); j2 := None;
     canonical_orbit := Some (Orbit.mk (28750400000 # 10) (463 # 10000) (773 # 1000) (74006 # 1000) (96998 # 1000) (1422386 # 10000)) |};
  {| id := 899; name := "Neptune"; parent := Some 8; streamed := Some true;
     GM := Some (68351031 # 10); r_eq := Some (247640 # 10); j2 := None;
     canonical_orbit := Some (Orbit.mk (45044500000 # 10) (97 # 10000) (1770 # 1000) (131784 # 1000) (273187 # 1000) (256228 # 1000)) |};
  {| id := 999; name := "Pluto"; parent := Some 9; streamed := Some true;
     GM := Some (869613817 # 1000000); r_eq := Some (11883 # 10); j2 := None;
     canonical_orbit := Some (Orbit.mk (59064406280 # 10) (2488 # 10000) (1716 # 100) (110299 # 1000) (113834 # 1000) (1453 # 100)) |};
  {| id := 301; name := "Moon"; parent := Some 3; streamed := Some true;
     GM := Some (4902800066 # 1000000); r_eq := Some (17374 # 10); j2 := Some (2032 # 10000000);
     canonical_orbit := Some (Orbit.mk (3844000 # 10) (549 # 10000) (5145 # 1000) (12508 # 100) (31815 # 100) (1153654 # 10000)) |};
  {| id := 401; name := "Phobos"; parent := Some 4; streamed := Some true;
     GM := Some (7112 # 10000000); r_eq := Some (112667 # 10000); j2 := Some (0 # 10);
     canonical_orbit := Some (Orbit.mk (93760 # 10) (151 # 10000) (1075 # 1000) (492 # 10) (150057 # 1000) (1774 # 10)) |};
  {| id := 402; name := "Deimos"; parent := Some 4; streamed := Some true;
     GM := Some (985 # 10000000); r_eq := Some (62 # 10); j2 := Some (0 # 10);
     canonical_orbit := Some (Orbit.mk (234632 # 10) (33 # 100000) (1788 # 1000) (31665 # 100) (260729 # 1000) (532 # 10)) |};
  {| id := 501; name := "Io"; parent := Some 5; streamed := Some true;
     GM := Some (5956 # 10); r_eq := Some (18216 # 10); j2 := Some (0 # 10);
     canonical_orbit := Some (Orbit.mk (4217000 # 10) (41 # 10000) (36 # 1000) (43977 # 1000) (84129 # 1000) (171016 # 1000)) |};
  {| id := 502; name := "Europa"; parent := Some 5; streamed := Some true;
     GM := Some (3200 # 10); r_eq := Some (15608 # 10); j2 := Some (0 # 10);
     canonical_orbit := Some (Orbit.mk (6710340 # 10) (9 # 1000) (465 # 1000) (219106 # 1000) (88970 # 1000) (29298 # 1000)) |};
  {| id := 503; name := "Ganymede"; parent := Some 5; streamed := Some true;
     GM := Some (9887 # 10); r_eq := Some (26341 # 10); j2 := Some (0 # 10);
     canonical_orbit := Some (Orbit.mk (10704120 # 10) (13 # 10000) (177 # 1000) (63552 # 1000) (192417 # 1000) (192417 # 1000)) |};
  {| id := 504; name := "Callisto"; parent := Some 5; streamed := Some true;
     GM := Some (7170 # 10); r_eq := Some (24103 # 10); j2 := Some (0 # 10);
     canonical_orbit := Some (Orbit.mk (18827090 # 10) (7 # 1000) (192 # 1000) (298848 # 1000) (52643 # 1000) (52643 # 1000)) |};
  {| id := 601; name := "Mimas"; parent := Some 6; streamed := Some true;
     GM := Some (2502 # 1000); r_eq := Some (1982 # 10); j2 := Some (0 # 10);
     canonical_orbit := Some (Orbit.mk (1855390 # 10) (196 # 10000) (1574 # 1000) (662 # 10) (1604 # 10) (2753 # 10)) |};
  {| id := 602; name := "Enceladus"; parent := Some 6; streamed := Some true;
     GM := Some (7210 # 1000); r_eq := Some (2521 # 10); j2 := Some (0 # 10);
     canonical_orbit := Some (Orbit.mk (2380420 # 10) (47 # 10000) (9 # 1000) (0 # 10) (1195 # 10) (570 # 10)) |};
  {| id := 603; name := "Tethys"; parent := Some 6; streamed := Some true;
     GM := Some (4121 # 100); r_eq := Some (5311 # 10); j2 := Some (0 # 10);
     canonical_orbit := Some (Orbit.mk (2946720 # 10) (1 # 10000) (1091 # 1000) (2730 # 10) (3353 # 10) (0 # 10)) |};
  {| id := 604; name := "Dione"; parent := Some 6; streamed := Some true;
     GM := Some (73116 # 1000); r_eq := Some (5614 # 10); j2 := Some (0 # 10);
     canonical_orbit := Some (Orbit.mk (3774150 # 10) (22 # 10000) (28 # 1000) (0 # 10) (1160 # 10) (2120 # 10)) |};
  {| id := 605; name := "Rhea"; parent := Some 6; streamed := Some true;
     GM := Some (15394 # 100); r_eq := Some (7638 # 10); j2 := Some (0 # 10);
     canonical_orbit := Some (Orbit.mk (5271080 # 10) (1 # 1000) (345 # 1000) (1337 # 10) (443 # 10) (315 # 10)) |};
  {| id := 606; name := "Titan"; parent := Some 6; streamed := Some true;
     GM := Some (89780 # 10); r_eq := Some (25747 # 10); j2 := Some (0 # 10);
     canonical_orbit := Some (Orbit.mk (12218700 # 10) (288 # 10000) (34854 # 100000) (786 # 10) (783 # 10) (117 # 10)) |};
  {| id := 608; name := "Iapetus"; parent := Some 6; streamed := Some true;
     GM := Some (1205 # 10); r_eq := Some (7345 # 10); j2 := Some (0 # 10);
     canonical_orbit := Some (Orbit.mk (35608200 # 10) (283 # 10000) (1547 # 100) (865 # 10) (2545 # 10) (748 # 10)) |};
  {| id := 701; name := "Ariel"; parent := Some 7; streamed := Some true;
     GM := Some (860 # 10); r_eq := Some (5789 # 10); j2 := Some (0 # 10);
     canonical_orbit := Some (Orbit.mk (1909000 # 10) (1 # 1000) (0 # 10) (0 # 10) (833 # 10) (1198 # 10)) |};
  {| id := 702; name := "Umbriel"; parent := Some 7; streamed := Some true;
     GM := Some (815 # 10); r_eq := Some (5847 # 10); j2 := Some (0 # 10);
     canonical_orbit := Some (Orbit.mk (2660000 # 10) (4 # 1000) (1 # 10) (1955 # 10) (1575 # 10) (2583 # 10)) |};
  {| id := 703; name := "Titania"; parent := Some 7; streamed := Some true;
     GM := Some (2282 # 10); r_eq := Some (7889 # 10); j2 := Some (0 # 10);
     canonical_orbit := Some (Orbit.mk (4363000 # 10) (1 # 1000) (1 # 10) (264 # 10) (2020 # 10) (532 # 10)) |};
  {| id := 704; name := "Oberon"; parent := Some 7; streamed := Some true;
     GM := Some (1924 # 10); r_eq := Some (7614 # 10); j2 := Some (0 # 10);
     canonical_orbit := Some (Orbit.mk (5834000 # 10) (1 # 1000) (1 # 10) (305 # 10) (1824 # 10) (1397 # 10)) |};
  {| id := 705; name := "Miranda"; parent := Some 7; streamed := Some true;
     GM := Some (44 # 10); r_eq := Some (2358 # 10); j2 := Some (0 # 10);
     canonical_orbit := Some (Orbit.mk (1299000 # 10) (1 # 1000) (44 # 10) (1007 # 10) (1556 # 10) (724 # 10)) |};
  {| id := 801; name := "Triton"; parent := Some 8; streamed := Some true;
     GM := Some (14276 # 10); r_eq := Some (13534 # 10); j2 := Some (0 # 10);
     canonical_orbit := Some (Orbit.mk (3548000 # 10) (0 # 1000) (1573 # 10) (1781 # 10) (0 # 10) (630 # 10)) |};
  {| id := 802; name := "Proteus"; parent := Some 8; streamed := Some true;
     GM := Some (105 # 1000); r_eq := Some (210 # 1); j2 := Some (0 # 10);
     canonical_orbit := Some (Orbit.mk (1176000 # 10) (0 # 1000) (0 # 10) (0 # 10) (0 # 10) (2768 # 10)) |};
  {| id := 803; name := "Nereid"; parent := Some 8; streamed := Some true;
     GM := Some (21 # 1000); r_eq := Some (170 # 1); j2 := Some (0 # 10);
     canonical_orbit := Some (Orbit.mk (55139000 # 10) (751 # 1000) (51 # 10) (3195 # 10) (2968 # 10) (3185 # 10)) |};
  {| id := 901; name := "Charon"; parent := Some 9; streamed := Some true;
     GM := Some (1014 # 10); r_eq := Some (6060 # 10); j2 := Some (0 # 10);
     canonical_orbit := Some (Orbit.mk (195914 # 10) (0 # 1000) (96145 # 1000) (223046 # 1000) (0 # 10) (0 # 10)) |};
  {| id := 902; name := "Nix"; parent := Some 9; streamed := Some true;
     GM := Some (3 # 1000); r_eq := Some (250 # 10); j2 := Some (0 # 10);
     canonical_orbit := Some (Orbit.mk (486940 # 10) (2 # 1000) (962 # 10) (2231 # 10) (0 # 10) (0 # 10)) |};
  {| id := 903; name := "Hydra"; parent := Some 9; streamed := Some true;
     GM := Some (5 # 1000); r_eq := Some (325 # 10); j2 := Some (0 # 10);
     canonical_orbit := Some (Orbit.mk (647380 # 10) (5 # 1000) (964 # 10) (2232 # 10) (0 # 10) (0 # 10)) |};
  {| id := 904; name := "Kerberos"; parent := Some 9; streamed := Some true;
     GM := Some (1 # 1000); r_eq := Some (120 # 10); j2 := Some (0 # 10);
     canonical_orbit := Some (Orbit.mk (577830 # 10) (3 # 1000) (963 # 10) (22315 # 100) (0 # 10) (0 # 10)) |};
  {| id := 905; name := "Styx"; parent := Some 9; streamed := Some true;
     GM := Some (5 # 10000); r_eq := Some (80 # 10); j2 := Some (0 # 10);
     canonical_orbit := Some (Orbit.mk (426560 # 10) (5 # 1000) (961 # 10) (2230 # 10) (0 # 10) (0 # 10)) |}
].

(** [DEFAULT_BODIES = [body["id"] for body in SOLAR_SYSTEM_BODIES
      if body.get("parent") is not None or body.get("id") == 10]] *)
Definition DEFAULT_BODIES : list Z :=
  map id (filter (fun b => match parent b with Some _ => true | None => false end
                           || Z.eqb (id b) 10) SOLAR_SYSTEM_BODIES).

(** Python dictionaries as association lists in insertion order: setting an
    existing key replaces its value in place, a new key is appended. *)
Fixpoint dict_set (k v : Z) (m : list (Z * Z)) : list (Z * Z) :=
  match m with
  | [] => [(k, v)]
  | (k', v') :: m' => if Z.eqb k k' then (k, v) :: m' else (k', v') :: dict_set k v m'
  end.

Fixpoint dict_get (k : Z) (m : list (Z * Z)) : option Z :=
  match m with
  | [] => None
  | (k', v') :: m' => if Z.eqb k k' then Some v' else dict_get k m'
  end.

(** [PARENT_MAP = {body["id"]: body["parent"] for body in SOLAR_SYSTEM_BODIES
      if body["parent"] is not None}] *)
Definition PARENT_MAP : list (Z * Z) :=
  fold_left (fun m b => match parent b with
                        | Some p => dict_set (id b) p m
                        | None => m
                        end) SOLAR_SYSTEM_BODIES [].

Definition REQUIRED_KERNELS : list string :=
  ["naif0013.tls"; "de440.bsp"; "pck00011_n006.tpc"; "gm_de440.tpc"; "jup230.bsp";
   "plu058.bsp"; "MAR097_030101_300101_V0001.BSP"; "saturn_majors_1900_2100.bsp"].

Definition SECONDS_PER_DAY : Q := 864000 # 10.
Definition DEFAULT_EPOCH : string := "2025-05-11T00:00:00".
Definition DEFAULT_DRAG_CUTOFF : Q := 500000 # 1.
Definition DEFAULT_FRAME : string := "ECLIPJ2000".

End Catalog.

(** ** The hierarchy view (BodyCatalog / HierarchyIndex of the spec) over
    the catalogue.  The source's own index is [PARENT_MAP]; the operations
    below are the spec's contracts on top of it. *)
Module Hierarchy.
Import Catalog.
Open Scope Z_scope.

Definition is_root (b : body) : bool :=
  match parent b with None => true | Some _ => false end.

Definition parent_of (x : Z) : option Z := dict_get x PARENT_MAP.

Definition get (x : Z) : option body := find (fun b => Z.eqb (id b) x) SOLAR_SYSTEM_BODIES.

(** Modelled from the spec: BodyCatalog.root, the unique record without a
    parent. *)
Definition root : option body :=
  match filter is_root SOLAR_SYSTEM_BODIES with [r] => Some r | _ => None end.

(** Modelled from the spec: HierarchyIndex.children_of, in catalogue order. *)
Definition children_of (x : Z) : list Z :=
  map id (filter (fun b => match parent b with Some p => Z.eqb p x | None => false end)
                 SOLAR_SYSTEM_BODIES).

(** Modelled from the spec: HierarchyIndex.ancestors, root first and ending
    at the body itself; [None] is the CycleError raised when the walk takes
    more steps than there are bodies. *)
Fixpoint climb (fuel : nat) (x : Z) (acc : list Z) : option (list Z) :=
  match parent_of x with
  | None => Some (x :: acc)
  | Some p => match fuel with
              | O => None
              | S f => climb f p (x :: acc)
              end
  end.

Definition ancestors (x : Z) : option (list Z) :=
  climb (length SOLAR_SYSTEM_BODIES) x [].

(** [x] is a proper ancestor of [y]: [y] reaches [x] by one or more parent
    links. *)
Inductive ancestor : Z -> Z -> Prop :=
| anc_parent x y : parent_of y = Some x -> ancestor x y
| anc_up x y z : parent_of z = Some y -> ancestor x y -> ancestor x z.

(** Consecutive entries of a root-first chain are parent and child. *)
Fixpoint linked (l : list Z) : Prop :=
  match l with
  | u :: ((v :: _) as r) => parent_of v = Some u /\ linked r
  | _ => True
  end.

Fixpoint linkedb (l : list Z) : bool :=
  match l with
  | u :: ((v :: _) as r) =>
      match parent_of v with Some p => Z.eqb p u | None => false end && linkedb r
  | _ => true
  end.

Fixpoint nodupb (l : list Z) : bool :=
  match l with
  | [] => true
  | x :: r => negb (existsb (Z.eqb x) r) && nodupb r
  end.

Definition depth (x : Z) : nat :=
  match ancestors x with Some l => length l | None => O end.

(** Modelled from the spec: a body is eligible for fallback derivation when
    it lacks [canonical_orbit] and is not the root. *)
Definition fallback_eligible (b : body) : bool :=
  match canonical_orbit b with
  | None => negb (is_root b)
  | Some _ => false
  end.

Definition orbit_in_range (b : body) : bool :=
  match canonical_orbit b with
  | None => true
  | Some o => negb (Qle_bool (Orbit.a o) 0) && Qle_bool 0 (Orbit.e o) && negb (Qle_bool 1 (Orbit.e o))
  end.

Inductive CatalogError :=
| DuplicateId (x : Z)
| DanglingParent (x p : Z)
| RootCount (n : nat)
| OrbitOutOfRange (x : Z).

Fixpoint find_duplicate (l : list Z) : option Z :=
  match l with
  | [] => None
  | x :: r => if existsb (Z.eqb x) r then Some x else find_duplicate r
  end.

Definition dangling (records : list body) (b : body) : option (Z * Z) :=
  match parent b with
  | Some p => if existsb (fun b' => Z.eqb (id b') p) records then None else Some (id b, p)
  | None => None
  end.

(** Modelled from the spec: BodyCatalog.load, which fails with a
    CatalogError on a duplicate id, a dangling parent reference, a number
    of roots other than one, or a [canonical_orbit] with [a <= 0] or [e]
    outside [0, 1). *)
Definition load (records : list body) : CatalogError + list body :=
  match find_duplicate (map id records) with
  | Some x => inl (DuplicateId x)
  | None =>
    match find (fun b => match dangling records b with Some _ => true | None => false end)
               records with
    | Some b => match parent b with
                | Some p => inl (DanglingParent (id b) p)
                | None => inl (DanglingParent (id b) 0)
                end
    | None =>
      match length (filter is_root records) with
      | 1%nat =>
        match find (fun b => negb (orbit_in_range b)) records with
        | Some b => inl (OrbitOutOfRange (id b))
        | None => inr records
        end
      | n => inl (RootCount n)
      end
    end
  end.

(** ISO-8601 calendar date and time, [YYYY-MM-DDTHH:MM:SS]. *)
Definition iso_shape : string := "dddd-dd-ddTdd:dd:dd".

Fixpoint shape_matches (pat s : string) : bool :=
  match pat, s with
  | EmptyString, EmptyString => true
  | String p pat', String c s' =>
      (if Ascii.eqb p "d"%char
       then Nat.leb 48 (Ascii.nat_of_ascii c) && Nat.leb (Ascii.nat_of_ascii c) 57
       else Ascii.eqb p c) && shape_matches pat' s'
  | _, _ => false
  end.

Definition is_iso8601_timestamp (s : string) : bool := shape_matches iso_shape s.

End Hierarchy.

(** ** The orbital-state core (KeplerPropagator, FallbackResolver).  No
    source file of the repository implements it; its definitions follow the
    spec's algorithm step by step, over the reals. *)
Module Kepler.
Open Scope R_scope.

Record Vector3 := mkV { vx : R; vy : R; vz : R }.

Definition vzero : Vector3 := mkV 0 0 0.
Definition vadd (u v : Vector3) : Vector3 := mkV (vx u + vx v) (vy u + vy v) (vz u + vz v).
Definition vneg (v : Vector3) : Vector3 := mkV (- vx v) (- vy v) (- vz v).
Definition vsum (l : list Vector3) : Vector3 := fold_right vadd vzero l.

(** Keplerian elements as the propagator takes them (angles in radians). *)
Record Elements := {
  el_a : R; el_e : R; el_i : R; el_Omega : R; el_omega : R; el_M0 : R
}.

Inductive PropagationError :=
| NumericalError (last_residual : R) (iterations : nat).

Inductive outcome (A : Type) :=
| Ok (x : A)
| Err (err : PropagationError).
Arguments Ok {A} x.
Arguments Err {A} err.

(** Modelled from the spec: KeplerPropagator.propagate (section 4.3). *)
Definition EPSILON : R := / 10 ^ 10.
Definition ITERATION_CAP : nat := 50.

(** Step 1: mean motion from [a] and the caller-supplied parameter. *)
Definition mean_motion (gm a : R) : R := sqrt (gm / a ^ 3).

(** Step 2: mean anomaly reduced to [0, 2 PI). *)
Definition norm_angle (M : R) : R := M - 2 * PI * IZR (Int_part (M / (2 * PI))).

(** Step 3: Newton-Raphson on [E - e sin E = M]. *)
Definition residual (e M E : R) : R := E - e * sin E - M.
Definition newton_step (e M E : R) : R := E - residual e M E / (1 - e * cos E).

Fixpoint newton (fuel : nat) (e M E : R) : outcome R :=
  if Rlt_dec (Rabs (residual e M E)) EPSILON then Ok E
  else match fuel with
       | O => Err (NumericalError (residual e M E) ITERATION_CAP)
       | S f => newton f e M (newton_step e M E)
       end.

(** The [j]-th Newton iterate from [E]. *)
Fixpoint iterate (j : nat) (e M E : R) : R :=
  match j with
  | O => E
  | S j' => iterate j' e M (newton_step e M E)
  end.

(** The two seeds the spec allows: [E0 = M], or [E0 = M + e]. *)
Definition seed_mean (e M : R) : R := M.
Definition seed_shifted (e M : R) : R := M + e.

(** Step 6: [e = 0] takes [E = M] without iterating. *)
Definition solve_kepler (seed : R -> R -> R) (e M : R) : outcome R :=
  if Req_dec_T e 0 then Ok M else newton ITERATION_CAP e M (seed e M).

(** Step 4: radius and true anomaly (as its cosine and sine) from [E]. *)
Definition radius (a e E : R) : R := a * (1 - e * cos E).
Definition cos_true_anomaly (e E : R) : R := (cos E - e) / (1 - e * cos E).
Definition sin_true_anomaly (e E : R) : R := sqrt (1 - e ^ 2) * sin E / (1 - e * cos E).

(** Step 5: position in the orbital plane, periapsis along the x axis. *)
Definition plane_position (a e E : R) : Vector3 :=
  mkV (radius a e E * cos_true_anomaly e E) (radius a e E * sin_true_anomaly e E) 0.

Definition rot_z (t : R) (v : Vector3) : Vector3 :=
  mkV (vx v * cos t - vy v * sin t) (vx v * sin t + vy v * cos t) (vz v).
Definition rot_x (t : R) (v : Vector3) : Vector3 :=
  mkV (vx v) (vy v * cos t - vz v * sin t) (vy v * sin t + vz v * cos t).

(** Rotations by [omega], [i], [Omega] in that order; [i = 0] skips the
    inclination rotation. *)
Definition orient (el : Elements) (v : Vector3) : Vector3 :=
  let v1 := rot_z (el_omega el) v in
  let v2 := if Req_dec_T (el_i el) 0 then v1 else rot_x (el_i el) v1 in
  rot_z (el_Omega el) v2.

Definition mean_anomaly (el : Elements) (gm dt : R) : R :=
  norm_angle (el_M0 el + mean_motion gm (el_a el) * dt).

Definition propagate (seed : R -> R -> R) (el : Elements) (gm dt : R) : outcome Vector3 :=
  match solve_kepler seed (el_e el) (mean_anomaly el gm dt) with
  | Ok E => Ok (orient el (plane_position (el_a el) (el_e el) E))
  | Err err => Err err
  end.

(** Modelled from the spec: FallbackResolver (section 4.4). *)
Definition root_offset : Vector3 := vzero.

Definition derive (designated_body_id : Z) (sibling_positions : list Vector3) : Vector3 :=
  vneg (vsum sibling_positions).

(** The resolved parent-relative positions of the children of one level, in
    order: the designated body is derived from its siblings, whose positions
    [pos] gives (the propagated positions at the epoch). *)
Definition resolve_level (designated : Z) (children : list Z) (pos : Z -> Vector3)
  : list Vector3 :=
  let siblings := filter (fun c => negb (Z.eqb c designated)) children in
  map (fun c => if Z.eqb c designated then derive designated (map pos siblings) else pos c)
      children.

End Kepler.

(** ** The two comprehensions of the source as functions of the record
    list they iterate over; applied to [SOLAR_SYSTEM_BODIES] they are
    [DEFAULT_BODIES] and [PARENT_MAP]. *)
Module Comprehensions.
Import Catalog.
Open Scope Z_scope.

Definition has_parent (b : body) : bool :=
  match parent b with Some _ => true | None => false end.

(** [[body["id"] for body in records
      if body.get("parent") is not None or body.get("id") == 10]] *)
Definition default_bodies_of (records : list body) : list Z :=
  map id (filter (fun b => has_parent b || Z.eqb (id b) 10) records).

(** [{body["id"]: body["parent"] for body in records
      if body["parent"] is not None}] *)
Definition parent_map_of (records : list body) : list (Z * Z) :=
  fold_left (fun m b => match parent b with
                        | Some p => dict_set (id b) p m
                        | None => m
                        end) records [].

(** The value a Python dict comprehension leaves under key [x]: the parent
    of the last record with id [x] and a parent. *)
Definition last_parent (x : Z) (records : list body) : option Z :=
  fold_left (fun acc b => if Z.eqb (id b) x
                          then match parent b with Some p => Some p | None => acc end
                          else acc) records None.

(** One step of the [PARENT_MAP] comprehension. *)
Definition pm_step (m : list (Z * Z)) (b : body) : list (Z * Z) :=
  match parent b with Some p => dict_set (id b) p m | None => m end.

(** A one-record catalogue whose Sun has no parent. *)
Definition parentless_sun : body :=
  {| id := 10; name := "Sun"; parent := None; streamed := Some true;
     GM := None; r_eq := None; j2 := None; canonical_orbit := None |}.

End Comprehensions.

(** * Properties *)

Import Catalog Hierarchy.
Open Scope Z_scope.

(** ** Reflection of the boolean checks *)

Lemma forallb_Forall {A} (f : A -> bool) (P : A -> Prop) (l : list A) :
  (forall x, f x = true -> P x) -> forallb f l = true -> Forall P l.
Proof.
  intros Hf Hl; apply Forall_forall; intros x Hx.
  apply Hf; rewrite forallb_forall in Hl; auto.
Qed.

Lemma nodupb_sound (l : list Z) : nodupb l = true -> NoDup l.
Proof.
  induction l as [|x r IH]; simpl; intros H; [constructor|].
  apply andb_true_iff in H as [Hx Hr]; constructor; auto.
  intros Hin; apply negb_true_iff in Hx.
  assert (existsb (Z.eqb x) r = true) as Hc
    by (apply existsb_exists; exists x; split; auto; apply Z.eqb_refl).
  congruence.
Qed.

Lemma linkedb_sound (l : list Z) : linkedb l = true -> linked l.
Proof.
  induction l as [|u rest IH]; [intros; exact I|].
  destruct rest as [|v rest']; [intros; exact I|]; intros H; cbn [linkedb] in H |- *.
  apply andb_true_iff in H as [Hp Hr]; split; auto.
  destruct (parent_of v) as [p|]; [apply Z.eqb_eq in Hp; congruence | discriminate].
Qed.

Lemma dict_get_in (k v : Z) (m : list (Z * Z)) : dict_get k m = Some v -> In (k, v) m.
Proof.
  induction m as [|[k' v'] m IH]; simpl; [discriminate|].
  destruct (Z.eqb_spec k k') as [->|_]; intros H; [inversion H; auto | right; auto].
Qed.

Lemma dict_get_some_iff (k : Z) (m : list (Z * Z)) :
  (exists v, dict_get k m = Some v) <-> In k (map fst m).
Proof.
  induction m as [|[k' v'] m IH]; simpl.
  - split; [intros [v H]; discriminate | tauto].
  - destruct (Z.eqb_spec k k') as [->|Hne].
    + split; [auto | intros _; eauto].
    + rewrite IH; split; [auto | intros [H|H]; [congruence | auto]].
Qed.

(** ** The parent relation is well founded: the depth strictly decreases
    along every link. *)

Lemma depth_decreases_on_links :
  forallb (fun '(c, p) => Nat.ltb (depth p) (depth c)) PARENT_MAP = true.
Proof. vm_compute; reflexivity. Qed.

Lemma ancestor_depth (x y : Z) : ancestor x y -> (depth x < depth y)%nat.
Proof.
  assert (Hlink : forall c p, parent_of c = Some p -> (depth p < depth c)%nat).
  { intros c p Hcp; apply dict_get_in in Hcp.
    pose proof depth_decreases_on_links as Hd; rewrite forallb_forall in Hd.
    apply Hd in Hcp; apply Nat.ltb_lt in Hcp; exact Hcp. }
  induction 1 as [x y H | x y z H _ IH]; [auto|].
  apply Hlink in H; lia.
Qed.

Lemma children_of_root : children_of 0 = [10; 1; 2; 3; 4; 5; 6; 7; 8; 9].
Proof. vm_compute; reflexivity. Qed.

(** ** Claims on the catalogue *)

(** C1: every parent reference of [SOLAR_SYSTEM_BODIES] names a record of the
    catalogue ([PARENT_MAP] agrees with the records); from every body the
    parent links lead to the root, id 0, along a chain without repetition;
    and no body is its own ancestor. *)
Theorem parent_graph_is_tree :
  Forall (fun b => match parent b with
                   | None => True
                   | Some p => Exists (fun b' => id b' = p) SOLAR_SYSTEM_BODIES
                   end) SOLAR_SYSTEM_BODIES
  /\ Forall (fun b => parent_of (id b) = parent b) SOLAR_SYSTEM_BODIES
  /\ Forall (fun b => exists l, ancestors (id b) = Some l /\ hd_error l = Some 0
                                /\ last l 0 = id b /\ linked l /\ NoDup l)
            SOLAR_SYSTEM_BODIES
  /\ (forall x, ~ ancestor x x).
Proof.
  split; [|split; [|split]].
  - apply (forallb_Forall (fun b => match parent b with
                                    | None => true
                                    | Some p => existsb (fun b' => Z.eqb (id b') p)
                                                        SOLAR_SYSTEM_BODIES
                                    end)); [|vm_compute; reflexivity].
    intros b; destruct (parent b) as [p|]; [|auto].
    intros H; apply existsb_exists in H as [b' [Hin Heq]].
    apply Exists_exists; exists b'; split; [auto | apply Z.eqb_eq; auto].
  - apply (forallb_Forall (fun b => match parent_of (id b), parent b with
                                    | Some x, Some y => Z.eqb x y
                                    | None, None => true
                                    | _, _ => false
                                    end)); [|vm_compute; reflexivity].
    intros b; destruct (parent_of (id b)), (parent b); try discriminate; auto.
    intros H; apply Z.eqb_eq in H; congruence.
  - apply (forallb_Forall (fun b => match ancestors (id b) with
                                    | Some l => match hd_error l with
                                                | Some h => Z.eqb h 0
                                                | None => false
                                                end
                                                && Z.eqb (last l 0) (id b)
                                                && linkedb l && nodupb l
                                    | None => false
                                    end)); [|vm_compute; reflexivity].
    intros b; destruct (ancestors (id b)) as [l|]; [|discriminate].
    intros H; repeat rewrite andb_true_iff in H.
    destruct H as [[[Hh Hl] Hk] Hn]; exists l; repeat split.
    + destruct (hd_error l); [apply Z.eqb_eq in Hh; congruence | discriminate].
    + apply Z.eqb_eq; auto.
    + apply linkedb_sound; auto.
    + apply nodupb_sound; auto.
  - intros x Hx; apply ancestor_depth in Hx; lia.
Qed.

(** C2: exactly one record has no parent, the Solar System Barycenter with
    id 0; [root] returns it; ids are unique; the root has no entry in
    [PARENT_MAP] and every other body has one. *)
Theorem unique_root :
  map id (filter is_root SOLAR_SYSTEM_BODIES) = [0]
  /\ option_map id root = Some 0
  /\ option_map name root = Some "Solar System Barycenter"%string
  /\ NoDup (map id SOLAR_SYSTEM_BODIES)
  /\ parent_of 0 = None
  /\ Forall (fun b => id b = 0 \/ exists p, parent_of (id b) = Some p) SOLAR_SYSTEM_BODIES.
Proof.
  repeat split; try (vm_compute; reflexivity).
  - apply nodupb_sound; vm_compute; reflexivity.
  - apply (forallb_Forall (fun b => Z.eqb (id b) 0
                                    || match parent_of (id b) with
                                       | Some _ => true
                                       | None => false
                                       end)); [|vm_compute; reflexivity].
    intros b H; apply orb_true_iff in H as [H|H]; [left; apply Z.eqb_eq; auto|right].
    destruct (parent_of (id b)) as [p|]; [eauto | discriminate].
Qed.

(** C3: the direct children of the root are the Sun (10) and the nine
    system barycenters (1 to 9); among them exactly the Sun lacks a
    [canonical_orbit] and is eligible for fallback derivation; in the whole
    catalogue only the root and the Sun lack a [canonical_orbit]. *)
Theorem root_children_orbits :
  children_of 0 = [10; 1; 2; 3; 4; 5; 6; 7; 8; 9]
  /\ Forall (fun c => exists b, get c = Some b
                                /\ (canonical_orbit b = None <-> c = 10)
                                /\ (fallback_eligible b = true <-> c = 10))
            (children_of 0)
  /\ map id (filter (fun b => match canonical_orbit b with None => true | Some _ => false end)
                    SOLAR_SYSTEM_BODIES) = [0; 10].
Proof.
  split; [exact children_of_root|split; [|vm_compute; reflexivity]].
  rewrite children_of_root.
  repeat constructor; eexists; (split; [vm_compute; reflexivity|]);
    cbn; split; split; intros; (reflexivity || discriminate).
Qed.

(** C4: every [canonical_orbit] of the catalogue has [a > 0] and
    [0 <= e < 1], Nereid's [e = 0.751] included, and BodyCatalog.load
    accepts the catalogue (so it raises no CatalogError at all, in
    particular none for out-of-range elements). *)
Theorem orbits_in_range :
  Forall (fun b => match canonical_orbit b with
                   | None => True
                   | Some o => (0 < Orbit.a o)%Q /\ (0 <= Orbit.e o)%Q /\ (Orbit.e o < 1)%Q
                   end) SOLAR_SYSTEM_BODIES
  /\ option_map (fun b => (name b, option_map Orbit.e (canonical_orbit b))) (get 803)
     = Some ("Nereid"%string, Some (751 # 1000)%Q)
  /\ load SOLAR_SYSTEM_BODIES = inr SOLAR_SYSTEM_BODIES.
Proof.
  split; [|split; vm_compute; reflexivity].
  apply (forallb_Forall orbit_in_range); [|vm_compute; reflexivity].
  intros b; unfold orbit_in_range; destruct (canonical_orbit b) as [o|]; [|auto].
  intros H; repeat rewrite andb_true_iff in H; destruct H as [[Ha He0] He1].
  apply negb_true_iff in Ha, He1.
  repeat split.
  - apply Qnot_le_lt; intros Hc; apply Qle_bool_iff in Hc; congruence.
  - apply Qle_bool_iff; auto.
  - apply Qnot_le_lt; intros Hc; apply Qle_bool_iff in Hc; congruence.
Qed.

(** C8: the pass-through constants: [SECONDS_PER_DAY = 86400.0],
    [DEFAULT_EPOCH = "2025-05-11T00:00:00"] (an ISO-8601 timestamp),
    [DEFAULT_FRAME = "ECLIPJ2000"], [DEFAULT_DRAG_CUTOFF = 500e3] (meters);
    each is a literal of the source. *)
Theorem named_constants :
  (SECONDS_PER_DAY == 86400)%Q
  /\ DEFAULT_EPOCH = "2025-05-11T00:00:00"%string
  /\ is_iso8601_timestamp DEFAULT_EPOCH = true
  /\ DEFAULT_FRAME = "ECLIPJ2000"%string
  /\ (DEFAULT_DRAG_CUTOFF == 500000)%Q.
Proof. repeat split; vm_compute; reflexivity. Qed.

(** C9: [DEFAULT_BODIES] lists, in catalogue order, the id of every record
    but the root; dropping the disjunct that admits id 10 changes nothing;
    it is the key list of [PARENT_MAP], so both have the same members. *)
Theorem default_bodies_shape :
  DEFAULT_BODIES = map id (filter (fun b => negb (Z.eqb (id b) 0)) SOLAR_SYSTEM_BODIES)
  /\ DEFAULT_BODIES
     = map id (filter (fun b => match parent b with Some _ => true | None => false end)
                      SOLAR_SYSTEM_BODIES)
  /\ DEFAULT_BODIES = map fst PARENT_MAP
  /\ (forall x, In x DEFAULT_BODIES <-> exists p, dict_get x PARENT_MAP = Some p).
Proof.
  assert (Hk : DEFAULT_BODIES = map fst PARENT_MAP) by (vm_compute; reflexivity).
  split; [vm_compute; reflexivity|split; [vm_compute; reflexivity|split; [exact Hk|]]].
  intros x; rewrite Hk, dict_get_some_iff; reflexivity.
Qed.

(** C10: every record carries an explicit boolean [streamed]; it is [False]
    for the root (id 0) only and [True] for every other body, the Sun
    included. *)
Theorem streamed_flags :
  Forall (fun b => streamed b = Some (negb (Z.eqb (id b) 0))) SOLAR_SYSTEM_BODIES
  /\ map id (filter (fun b => match streamed b with Some false => true | _ => false end)
                    SOLAR_SYSTEM_BODIES) = [0]
  /\ option_map streamed (get 10) = Some (Some true).
Proof.
  split; [|split; vm_compute; reflexivity].
  apply (forallb_Forall (fun b => match streamed b with
                                  | Some s => Bool.eqb s (negb (Z.eqb (id b) 0))
                                  | None => false
                                  end)); [|vm_compute; reflexivity].
  intros b; destruct (streamed b) as [s|]; [|discriminate].
  intros H; apply Bool.eqb_prop in H; congruence.
Qed.

(** ** Claims on the orbital-state core *)

Section KeplerFacts.
Import Kepler.
Local Open Scope R_scope.

Lemma Int_part_small (r : R) : 0 <= r < 1 -> Int_part r = 0%Z.
Proof.
  intros [H0 H1]; destruct (base_Int_part r) as [Hl Hg].
  assert (IZR (Int_part r) < 1) as Hu by lra.
  assert (-1 < IZR (Int_part r)) as Hd by lra.
  apply lt_IZR in Hu; apply lt_IZR in Hd; lia.
Qed.

Lemma norm_angle_id (x : R) : 0 <= x < 2 * PI -> norm_angle x = x.
Proof.
  intros [H0 H1]; pose proof PI_RGT_0 as Hpi; unfold norm_angle.
  rewrite (Int_part_small (x / (2 * PI))); [simpl; ring|split].
  - apply Rmult_le_pos; [lra | left; apply Rinv_0_lt_compat; lra].
  - apply Rmult_lt_reg_r with (2 * PI); [lra|].
    unfold Rdiv; rewrite Rmult_assoc, Rinv_l, Rmult_1_r, Rmult_1_l; lra.
Qed.

Lemma norm_angle_range (x : R) : 0 <= norm_angle x < 2 * PI.
Proof.
  pose proof PI_RGT_0 as Hpi; unfold norm_angle.
  destruct (base_Int_part (x / (2 * PI))) as [H1 H2].
  set (k := IZR (Int_part (x / (2 * PI)))) in *.
  set (q := x / (2 * PI)) in *.
  assert (Hx : x = q * (2 * PI)) by (unfold q; field; lra).
  rewrite Hx; split; nra.
Qed.

Lemma EPSILON_pos : 0 < EPSILON.
Proof. unfold EPSILON; apply Rinv_0_lt_compat, pow_lt; lra. Qed.

Lemma newton_converged (k : nat) (e M E : R) :
  Rabs (residual e M E) < EPSILON -> newton k e M E = Ok E.
Proof. intros H; destruct k; simpl; destruct (Rlt_dec _ _); tauto. Qed.

(** Newton's result is a converged iterate, and its failure means no
    iterate up to the cap converged. *)
Lemma newton_spec (k : nat) (e M E : R) :
  match newton k e M E with
  | Ok E' => Rabs (residual e M E') < EPSILON
             /\ exists j, (j <= k)%nat /\ E' = iterate j e M E
  | Err (NumericalError _ n) =>
      n = ITERATION_CAP
      /\ forall j, (j <= k)%nat -> ~ Rabs (residual e M (iterate j e M E)) < EPSILON
  end.
Proof.
  revert E; induction k as [|k IH]; intros E; simpl;
    destruct (Rlt_dec (Rabs (residual e M E)) EPSILON) as [Hc|Hc].
  - split; [exact Hc | exists O; split; [lia | reflexivity]].
  - split; [reflexivity|]; intros j Hj; assert (j = O) as -> by lia; exact Hc.
  - split; [exact Hc | exists O; split; [lia | reflexivity]].
  - specialize (IH (newton_step e M E)).
    destruct (newton k e M (newton_step e M E)) as [E'|[r n]].
    + destruct IH as [Hr [j [Hj ->]]]; split; [exact Hr|].
      exists (S j); split; [lia | reflexivity].
    + destruct IH as [Hn IH]; split; [exact Hn|].
      intros [|j] Hj; [exact Hc | apply IH; lia].
Qed.

Lemma plane_position_circular (a M : R) : plane_position a 0 M = mkV (a * cos M) (a * sin M) 0.
Proof.
  unfold plane_position, radius, cos_true_anomaly, sin_true_anomaly.
  replace (1 - 0 ^ 2) with 1 by ring; rewrite sqrt_1.
  f_equal; field.
Qed.

End KeplerFacts.

Section KeplerClaims.
Import Kepler.
Local Open Scope R_scope.

(** C5: [derive] returns the negated sum of the sibling positions, so the
    siblings plus the derived body sum to zero; at the root's level, whatever
    the propagated positions [pos] of the barycenters at the epoch, the
    resolved positions of all direct children of the root, the Sun's
    included, sum to the zero vector. *)
Theorem fallback_balances_root_level :
  (forall d sibling_positions,
      derive d sibling_positions = vneg (vsum sibling_positions)
      /\ vadd (vsum sibling_positions) (derive d sibling_positions) = vzero)
  /\ (forall pos : Z -> Vector3, vsum (resolve_level 10 (children_of 0) pos) = vzero).
Proof.
  split.
  - intros d s; split; [reflexivity|].
    unfold derive; destruct (vsum s) as [x y z]; unfold vadd, vneg, vzero; cbn.
    f_equal; ring.
  - intros pos; rewrite children_of_root.
    unfold resolve_level, derive; cbn [filter map Z.eqb negb Pos.eqb].
    unfold vsum, vadd, vneg, vzero; cbn [fold_right vx vy vz].
    f_equal; ring.
Qed.

(** C6 (as amended): [propagate] never returns an unconverged value: a
    position comes from [E = M] when [e = 0], or from a Newton iterate, at
    most [ITERATION_CAP] steps from the seed, whose residual is below
    [EPSILON]; a NumericalError is raised only when [e <> 0] and no iterate up
    to the cap has a residual below [EPSILON]. *)
Theorem propagate_never_unconverged (seed : R -> R -> R) (el : Elements) (gm dt : R) :
  let M := mean_anomaly el gm dt in
  match propagate seed el gm dt with
  | Ok p =>
      exists E, p = orient el (plane_position (el_a el) (el_e el) E)
                /\ ((el_e el = 0 /\ E = M)
                    \/ (Rabs (residual (el_e el) M E) < EPSILON
                        /\ exists j, (j <= ITERATION_CAP)%nat
                                     /\ E = iterate j (el_e el) M (seed (el_e el) M)))
  | Err (NumericalError _ n) =>
      el_e el <> 0 /\ n = ITERATION_CAP
      /\ forall j, (j <= ITERATION_CAP)%nat ->
                   ~ Rabs (residual (el_e el) M (iterate j (el_e el) M (seed (el_e el) M)))
                     < EPSILON
  end.
Proof.
  intros M; unfold propagate, solve_kepler; fold M.
  destruct (Req_dec_T (el_e el) 0) as [He|He].
  - exists M; split; [reflexivity | left; split; [exact He | reflexivity]].
  - pose proof (newton_spec ITERATION_CAP (el_e el) M (seed (el_e el) M)) as Hn.
    destruct (newton ITERATION_CAP (el_e el) M (seed (el_e el) M)) as [E|[r n]].
    + exists E; split; [reflexivity | right; exact Hn].
    + destruct Hn as [Hn Hj]; split; [exact He | split; [exact Hn | exact Hj]].
Qed.

(** C6 (counterexample): with [e = 0.999999] and the cap of 50 the result is
    not always a NumericalError: with the seed [E0 = M] the element set with
    [M0 = 0] converges at once (at [dt = 0]), and with the seed [E0 = M + e]
    so does the one with [M0 = PI/2 - e]. *)
Lemma eccentric_solve_can_converge :
  ~ (forall el gm dt, el_e el = 999999 / 1000000 ->
       exists r n, propagate seed_mean el gm dt = Err (NumericalError r n))
  /\ ~ (forall el gm dt, el_e el = 999999 / 1000000 ->
       exists r n, propagate seed_shifted el gm dt = Err (NumericalError r n)).
Proof.
  pose proof PI_RGT_0 as Hpi; pose proof PI2_3_2 as Hpi2.
  set (e := 999999 / 1000000).
  assert (He : e <> 0) by (unfold e; lra).
  assert (He1 : e < 1) by (unfold e; lra).
  split; intros H.
  - set (el := {| el_a := 1; el_e := e; el_i := 0; el_Omega := 0; el_omega := 0; el_M0 := 0 |}).
    destruct (H el 1 0 eq_refl) as [r [n Hp]].
    assert (HM : mean_anomaly el 1 0 = 0).
    { unfold mean_anomaly; cbn [el_M0 el_a el]; rewrite Rmult_0_r, Rplus_0_r.
      apply norm_angle_id; lra. }
    unfold propagate, solve_kepler in Hp; rewrite HM in Hp; cbn [el_e el] in Hp.
    destruct (Req_dec_T e 0) as [He0|_]; [contradiction|].
    rewrite newton_converged in Hp; [discriminate|].
    unfold seed_mean, residual; rewrite sin_0, Rmult_0_r.
    replace (0 - 0 - 0) with 0 by ring; rewrite Rabs_R0; exact EPSILON_pos.
  - set (el := {| el_a := 1; el_e := e; el_i := 0; el_Omega := 0; el_omega := 0;
                  el_M0 := PI / 2 - e |}).
    destruct (H el 1 0 eq_refl) as [r [n Hp]].
    assert (HM : mean_anomaly el 1 0 = PI / 2 - e).
    { unfold mean_anomaly; cbn [el_M0 el_a el]; rewrite Rmult_0_r, Rplus_0_r.
      apply norm_angle_id; unfold e in *; lra. }
    unfold propagate, solve_kepler in Hp; rewrite HM in Hp; cbn [el_e el] in Hp.
    destruct (Req_dec_T e 0) as [He0|_]; [contradiction|].
    rewrite newton_converged in Hp; [discriminate|].
    unfold seed_shifted, residual.
    replace (PI / 2 - e + e) with (PI / 2) by ring; rewrite sin_PI2.
    replace (PI / 2 - e * 1 - (PI / 2 - e)) with 0 by ring.
    rewrite Rabs_R0; exact EPSILON_pos.
Qed.

(** C7: for [e = 0], any [a], any orientation and any [dt], the Kepler solve
    takes [E = M] without iterating, the radius is [a], the true anomaly
    (the angle from periapsis) has the cosine and sine of the normalised
    mean anomaly [M] in [0, 2 PI), and the position is [a (cos M, sin M, 0)]
    rotated into the parent frame. *)
Theorem circular_orbit_angle (seed : R -> R -> R) (a i Omega omega M0 gm dt : R) :
  let el := {| el_a := a; el_e := 0; el_i := i; el_Omega := Omega; el_omega := omega;
               el_M0 := M0 |} in
  let M := mean_anomaly el gm dt in
  solve_kepler seed 0 M = Ok M
  /\ 0 <= M < 2 * PI
  /\ radius a 0 M = a
  /\ cos_true_anomaly 0 M = cos M /\ sin_true_anomaly 0 M = sin M
  /\ propagate seed el gm dt = Ok (orient el (mkV (a * cos M) (a * sin M) 0)).
Proof.
  intros el M.
  assert (Hs : solve_kepler seed 0 M = Ok M).
  { unfold solve_kepler; destruct (Req_dec_T 0 0); [reflexivity | contradiction]. }
  split; [exact Hs|split; [apply norm_angle_range|]].
  split; [unfold radius; ring|].
  split; [unfold cos_true_anomaly; field|].
  split; [unfold sin_true_anomaly; replace (1 - 0 ^ 2) with 1 by ring;
          rewrite sqrt_1; field|].
  unfold propagate; cbn [el_e el]; fold M; rewrite Hs.
  cbn [el_a el]; rewrite plane_position_circular; reflexivity.
Qed.

End KeplerClaims.

(** ** The comprehensions on any record list *)

Import Comprehensions.
Local Open Scope list_scope.

Lemma default_bodies_of_catalog : DEFAULT_BODIES = default_bodies_of SOLAR_SYSTEM_BODIES.
Proof. unfold DEFAULT_BODIES, default_bodies_of, has_parent; reflexivity. Qed.

Lemma parent_map_of_catalog : PARENT_MAP = parent_map_of SOLAR_SYSTEM_BODIES.
Proof. unfold PARENT_MAP, parent_map_of; reflexivity. Qed.

Lemma dict_get_set (k v x : Z) (m : list (Z * Z)) :
  dict_get x (dict_set k v m) = if Z.eqb x k then Some v else dict_get x m.
Proof.
  induction m as [|[k' v'] m IH]; cbn [dict_set dict_get].
  - reflexivity.
  - destruct (Z.eqb_spec k k') as [->|Hne]; cbn [dict_get].
    + destruct (Z.eqb x k'); reflexivity.
    + rewrite IH; destruct (Z.eqb_spec x k) as [->|]; [|reflexivity].
      apply Z.eqb_neq in Hne; rewrite Hne; reflexivity.
Qed.

Lemma dict_set_keys_in (k v x : Z) (m : list (Z * Z)) :
  In x (map fst (dict_set k v m)) <-> x = k \/ In x (map fst m).
Proof.
  induction m as [|[k' v'] m IH]; cbn [dict_set map fst].
  - simpl; intuition congruence.
  - destruct (Z.eqb_spec k k') as [->|Hne]; simpl; [intuition congruence|].
    rewrite IH; intuition congruence.
Qed.

Lemma dict_set_keys_nodup (k v : Z) (m : list (Z * Z)) :
  NoDup (map fst m) -> NoDup (map fst (dict_set k v m)).
Proof.
  induction m as [|[k' v'] m IH]; cbn [dict_set map fst]; intros Hn.
  - repeat constructor; simpl; tauto.
  - destruct (Z.eqb_spec k k') as [->|Hne]; [exact Hn|].
    inversion Hn as [|? ? Hk Hm]; subst; cbn [map fst]; constructor; [|auto].
    rewrite dict_set_keys_in; intros [H|H]; [congruence | contradiction].
Qed.

Lemma dict_set_fresh_keys (k v : Z) (m : list (Z * Z)) :
  ~ In k (map fst m) -> map fst (dict_set k v m) = map fst m ++ [k].
Proof.
  induction m as [|[k' v'] m IH]; cbn [dict_set map fst]; intros Hk; [reflexivity|].
  destruct (Z.eqb_spec k k') as [->|Hne]; [simpl in Hk; tauto|].
  cbn [map fst app]; f_equal; apply IH; simpl in Hk; tauto.
Qed.

Lemma parent_map_of_fold (rs : list body) : parent_map_of rs = fold_left pm_step rs [].
Proof. reflexivity. Qed.

Lemma parent_map_fold_get (x : Z) (rs : list body) (m : list (Z * Z)) (acc : option Z) :
  dict_get x m = acc ->
  dict_get x (fold_left pm_step rs m)
  = fold_left (fun acc b => if Z.eqb (id b) x
                            then match parent b with Some p => Some p | None => acc end
                            else acc) rs acc.
Proof.
  revert m acc; induction rs as [|b rs IH]; intros m acc Hm; [exact Hm|].
  cbn [fold_left]; apply IH; unfold pm_step.
  destruct (parent b) as [p|].
  - rewrite dict_get_set, Z.eqb_sym; destruct (Z.eqb (id b) x); congruence.
  - destruct (Z.eqb (id b) x); exact Hm.
Qed.

Lemma parent_map_fold_keys_in (x : Z) (rs : list body) (m : list (Z * Z)) :
  In x (map fst (fold_left pm_step rs m))
  <-> In x (map fst m) \/ exists b, In b rs /\ id b = x /\ parent b <> None.
Proof.
  revert m; induction rs as [|b rs IH]; intros m; cbn [fold_left].
  - split; [auto | intros [H|[b [[] _]]]; exact H].
  - rewrite IH; unfold pm_step; split.
    + intros [H|[b' [Hin Hb']]]; [|right; exists b'; simpl; auto].
      destruct (parent b) as [p|] eqn:Hp; [|auto].
      apply dict_set_keys_in in H as [H|H]; [|auto].
      right; exists b; simpl; split; [auto|split; [auto|congruence]].
    + intros [H|[b' [[<-|Hin] Hb']]].
      * left; destruct (parent b); [apply dict_set_keys_in; auto | exact H].
      * left; destruct (parent b) as [p|]; [|tauto].
        apply dict_set_keys_in; left; symmetry; tauto.
      * right; exists b'; auto.
Qed.

Lemma parent_map_fold_nodup (rs : list body) (m : list (Z * Z)) :
  NoDup (map fst m) -> NoDup (map fst (fold_left pm_step rs m)).
Proof.
  revert m; induction rs as [|b rs IH]; intros m Hm; [exact Hm|].
  cbn [fold_left]; apply IH; unfold pm_step.
  destruct (parent b); [apply dict_set_keys_nodup|]; exact Hm.
Qed.

Lemma parent_map_fold_fresh (rs : list body) (m : list (Z * Z)) :
  NoDup (map id rs) -> (forall b, In b rs -> ~ In (id b) (map fst m)) ->
  map fst (fold_left pm_step rs m) = map fst m ++ map id (filter has_parent rs).
Proof.
  revert m; induction rs as [|b rs IH]; intros m Hn Hf; cbn [fold_left filter].
  - rewrite app_nil_r; reflexivity.
  - inversion Hn as [|? ? Hb Hrs]; subst.
    unfold pm_step at 2; unfold has_parent at 1.
    destruct (parent b) as [p|] eqn:Hp.
    + rewrite IH; [|exact Hrs|].
      * rewrite dict_set_fresh_keys by (apply Hf; simpl; auto).
        cbn [map]; rewrite <- app_assoc; reflexivity.
      * intros b' Hin; rewrite dict_set_keys_in; intros [H|H].
        -- apply Hb; rewrite <- H; apply in_map; exact Hin.
        -- apply (Hf b'); simpl; auto.
    + apply IH; [exact Hrs|]; intros b' Hin; apply Hf; simpl; auto.
Qed.

Lemma nodup_map_id_inj (rs : list body) (b b' : body) :
  NoDup (map id rs) -> In b rs -> In b' rs -> id b = id b' -> b = b'.
Proof.
  induction rs as [|c rs IH]; intros Hn Hb Hb' He; [destruct Hb|].
  inversion Hn as [|? ? Hc Hrs]; subst.
  destruct Hb as [<-|Hb], Hb' as [<-|Hb']; auto.
  - exfalso; apply Hc; rewrite He; apply in_map; exact Hb'.
  - exfalso; apply Hc; rewrite <- He; apply in_map; exact Hb.
Qed.

(** ** Further properties of the source *)

(** X1: [PARENT_MAP] built from any record list keeps, under each id, the
    parent of the last record with that id and a parent (a later duplicate
    overwrites an earlier one); an id with no such record has no entry. *)
Theorem parent_map_last_wins (rs : list body) (x : Z) :
  dict_get x (parent_map_of rs) = last_parent x rs.
Proof.
  unfold parent_map_of, last_parent.
  exact (parent_map_fold_get x rs [] None eq_refl).
Qed.

(** X2: the keys of the [PARENT_MAP] comprehension, on any record list, are
    distinct and are exactly the ids of the records whose parent is not
    [None]. *)
Theorem parent_map_keys (rs : list body) :
  NoDup (map fst (parent_map_of rs))
  /\ forall x, In x (map fst (parent_map_of rs))
               <-> exists b, In b rs /\ id b = x /\ parent b <> None.
Proof.
  unfold parent_map_of; split.
  - apply (parent_map_fold_nodup rs []); constructor.
  - intros x; rewrite (parent_map_fold_keys_in x rs []); simpl; tauto.
Qed.

(** X3: the [DEFAULT_BODIES] comprehension, on any record list, lists the
    ids of the records that have a parent or have id 10. *)
Theorem default_bodies_members (rs : list body) (x : Z) :
  In x (default_bodies_of rs)
  <-> exists b, In b rs /\ id b = x /\ (parent b <> None \/ x = 10).
Proof.
  unfold default_bodies_of; rewrite in_map_iff; split.
  - intros [b [<- Hb]]; apply filter_In in Hb as [Hin Hf].
    exists b; split; [exact Hin|split; [reflexivity|]].
    apply orb_true_iff in Hf as [H|H]; [left | right; apply Z.eqb_eq; exact H].
    unfold has_parent in H; destruct (parent b); [discriminate | discriminate H].
  - intros [b [Hin [<- Hp]]]; exists b; split; [reflexivity|].
    apply filter_In; split; [exact Hin|]; apply orb_true_iff.
    destruct Hp as [Hp|Hp]; [left | right; apply Z.eqb_eq; exact Hp].
    unfold has_parent; destruct (parent b); [reflexivity | contradiction].
Qed.

(** X4: for a record list with distinct ids in which a record with id 10
    has a parent, [DEFAULT_BODIES] is the key list of [PARENT_MAP], in the
    same order. *)
Theorem default_bodies_are_parent_keys (rs : list body) :
  NoDup (map id rs) ->
  Forall (fun b => id b = 10 -> parent b <> None) rs ->
  default_bodies_of rs = map fst (parent_map_of rs).
Proof.
  intros Hn Hs; rewrite parent_map_of_fold.
  rewrite (parent_map_fold_fresh rs [] Hn) by (intros b _ []); cbn [map app].
  unfold default_bodies_of; f_equal; apply filter_ext_in; intros b Hb.
  rewrite Forall_forall in Hs; specialize (Hs b Hb); unfold has_parent in *.
  destruct (parent b); [reflexivity|].
  destruct (Z.eqb_spec (id b) 10) as [He|]; [exfalso; apply Hs; auto | reflexivity].
Qed.

Lemma default_bodies_are_parent_keys_witness :
  NoDup (map id SOLAR_SYSTEM_BODIES)
  /\ Forall (fun b => id b = 10 -> parent b <> None) SOLAR_SYSTEM_BODIES
  /\ default_bodies_of SOLAR_SYSTEM_BODIES = map fst (parent_map_of SOLAR_SYSTEM_BODIES).
Proof.
  assert (Hn : NoDup (map id SOLAR_SYSTEM_BODIES))
    by (apply nodupb_sound; vm_compute; reflexivity).
  assert (Hs : Forall (fun b => id b = 10 -> parent b <> None) SOLAR_SYSTEM_BODIES).
  { apply (forallb_Forall (fun b => negb (Z.eqb (id b) 10) || has_parent b));
      [|vm_compute; reflexivity].
    intros b H He; rewrite He in H; unfold has_parent in H.
    destruct (parent b); [discriminate | discriminate]. }
  split; [exact Hn|split; [exact Hs|]].
  apply default_bodies_are_parent_keys; [exact Hn | exact Hs].
Defined.

(** X5: the extra [or body.get("id") == 10] of [DEFAULT_BODIES] matters
    only when the record with id 10 has no parent: then 10 is in
    [DEFAULT_BODIES] but not a key of [PARENT_MAP]. *)
Theorem parentless_sun_default_only (rs : list body) (b : body) :
  NoDup (map id rs) -> In b rs -> id b = 10 -> parent b = None ->
  In 10 (default_bodies_of rs) /\ ~ In 10 (map fst (parent_map_of rs)).
Proof.
  intros Hn Hb Hid Hp; split.
  - apply default_bodies_members; exists b; auto.
  - destruct (parent_map_keys rs) as [_ Hk]; rewrite Hk.
    intros [b' [Hb' [Hid' Hp']]].
    assert (b = b') as <- by (apply (nodup_map_id_inj rs); congruence).
    contradiction.
Qed.

Lemma parentless_sun_default_only_witness :
  In 10 (default_bodies_of [parentless_sun])
  /\ ~ In 10 (map fst (parent_map_of [parentless_sun])).
Proof.
  apply (parentless_sun_default_only [parentless_sun] parentless_sun).
  - repeat constructor; simpl; tauto.
  - simpl; auto.
  - reflexivity.
  - reflexivity.
Defined.

(** X6: the catalogue follows the NAIF numbering: ids are non-negative;
    id 0 has no parent, ids 1 to 99 (the Sun and the system barycenters)
    have parent 0, and every id of 100 or more (planets and moons) has as
    parent its hundreds digit(s), the barycenter of its system. *)
Theorem naif_parent_numbering :
  Forall (fun b => 0 <= id b
                   /\ parent b = if Z.eqb (id b) 0 then None
                                 else if Z.ltb (id b) 100 then Some 0
                                 else Some (id b / 100))
         SOLAR_SYSTEM_BODIES.
Proof.
  apply (forallb_Forall
           (fun b => Z.leb 0 (id b)
                     && match parent b, (if Z.eqb (id b) 0 then None
                                         else if Z.ltb (id b) 100 then Some 0
                                         else Some (id b / 100)) with
                        | Some x, Some y => Z.eqb x y
                        | None, None => true
                        | _, _ => false
                        end)); [|vm_compute; reflexivity].
  intros b H; apply andb_true_iff in H as [H0 H]; apply Z.leb_le in H0.
  split; [exact H0|].
  destruct (parent b), (if Z.eqb (id b) 0 then _ else _); try discriminate; [|reflexivity].
  apply Z.eqb_eq in H; congruence.
Qed.

(** X7: each planet record (id ending in 99) carries a [canonical_orbit],
    the very one of its parent, the barycenter of its system. *)
Theorem planets_share_barycenter_orbit :
  Forall (fun b => Z.rem (id b) 100 = 99 ->
                   exists bc, get (id b / 100) = Some bc /\ parent b = Some (id bc)
                              /\ canonical_orbit b = canonical_orbit bc
                              /\ canonical_orbit b <> None)
         SOLAR_SYSTEM_BODIES.
Proof.
  apply Forall_forall; intros b Hb; unfold SOLAR_SYSTEM_BODIES in Hb.
  repeat (destruct Hb as [<-|Hb];
          [ first [ vm_compute; intros Hr; discriminate Hr
                  | intros _; eexists; split; [vm_compute; reflexivity|];
                    split; [reflexivity|]; split; [reflexivity | discriminate] ] | ]).
  destruct Hb.
Qed.

(** X8: every planet and moon (id of 100 or more) carries a positive [GM]
    and a positive [r_eq], and a non-negative [j2] when it has one; the root,
    the Sun and the barycenters carry none of the three. *)
Theorem physical_constants :
  Forall (fun b => if Z.leb 100 (id b)
                   then (exists g, GM b = Some g /\ (0 < g)%Q)
                        /\ (exists r, r_eq b = Some r /\ (0 < r)%Q)
                        /\ (forall j, j2 b = Some j -> (0 <= j)%Q)
                   else GM b = None /\ r_eq b = None /\ j2 b = None)
         SOLAR_SYSTEM_BODIES.
Proof.
  apply (forallb_Forall
           (fun b => if Z.leb 100 (id b)
                     then match GM b with Some g => negb (Qle_bool g 0) | None => false end
                          && match r_eq b with Some r => negb (Qle_bool r 0) | None => false end
                          && match j2 b with Some j => Qle_bool 0 j | None => true end
                     else match GM b, r_eq b, j2 b with
                          | None, None, None => true
                          | _, _, _ => false
                          end)); [|vm_compute; reflexivity].
  intros b H; destruct (Z.leb 100 (id b)).
  - repeat rewrite andb_true_iff in H; destruct H as [[Hg Hr] Hj].
    assert (Hpos : forall q, negb (Qle_bool q 0) = true -> (0 < q)%Q).
    { intros q Hq; apply negb_true_iff in Hq; apply Qnot_le_lt; intros Hc.
      apply Qle_bool_iff in Hc; congruence. }
    split; [|split].
    + destruct (GM b) as [g|]; [exists g; auto | discriminate].
    + destruct (r_eq b) as [r|]; [exists r; auto | discriminate].
    + intros j Hj'; rewrite Hj' in Hj; apply Qle_bool_iff; exact Hj.
  - destruct (GM b), (r_eq b), (j2 b); try discriminate; auto.
Qed.

(** X9: the hierarchy is two levels deep: through [PARENT_MAP], every body
    but the root has as parent either the root or a direct child of the
    root. *)
Theorem hierarchy_two_levels :
  Forall (fun b => match parent_of (id b) with
                   | None => id b = 0
                   | Some p => p = 0 \/ parent_of p = Some 0
                   end) SOLAR_SYSTEM_BODIES.
Proof.
  apply (forallb_Forall
           (fun b => match parent_of (id b) with
                     | None => Z.eqb (id b) 0
                     | Some p => Z.eqb p 0
                                 || match parent_of p with
                                    | Some q => Z.eqb q 0
                                    | None => false
                                    end
                     end)); [|vm_compute; reflexivity].
  intros b; destruct (parent_of (id b)) as [p|]; [|apply Z.eqb_eq].
  intros H; apply orb_true_iff in H as [H|H]; [left; apply Z.eqb_eq; exact H|right].
  destruct (parent_of p) as [q|]; [apply Z.eqb_eq in H; congruence | discriminate].
Qed.
